(** * get_compound_info2.py: the compound resolver, embedded and verified

    The script resolves a compound name against the PubChem PUG REST service
    with four dependent HTTP requests and prints one tab-delimited line.
    The embedding follows [src/get_compound_info2.py] line by line:

    - Python values coming out of [response.json()] are the inductive [pyobj];
    - a [str] is a [string]; every [ascii] stands for one code point in the
      range U+0000..U+00FF (not for a UTF-8 byte), and the character classes of
      [str.isdigit] and [str.strip] are the Unicode ones restricted to that
      range;
    - exceptions are values of [exn], and code that may raise returns a
      [result];
    - the requests issued, the log records emitted and the text printed are
      threaded through the state [world] by the monad [M];
    - the remote service is a function from the requested URL to what
      [requests.get] does for it. *)

From Stdlib Require Import String Ascii List ZArith Bool Lia DecimalString.
Import ListNotations.
Open Scope string_scope.
Open Scope Z_scope.

(** ** Characters and strings *)

Definition TAB : ascii := "009"%char.
Definition LF : ascii := "010"%char.
Definition HYPHEN : ascii := "-"%char.

Definition TABs : string := String TAB "".
Definition LFs : string := String LF "".

Definition code (c : ascii) : N := N_of_ascii c.

(** [str.isdigit] on one character: the decimal digits and, in the range
    modelled, the superscript digits U+00B2, U+00B3 and U+00B9. *)
Definition isdigit_char (c : ascii) : bool :=
  let n := code c in
  ((48 <=? n) && (n <=? 57) || (n =? 178) || (n =? 179) || (n =? 185))%N.

(** Whitespace as [str.strip()] sees it: U+0009..U+000D, U+001C..U+0020,
    U+0085 and U+00A0. *)
Definition isspace_char (c : ascii) : bool :=
  let n := code c in
  ((9 <=? n) && (n <=? 13) || (28 <=? n) && (n <=? 32) || (n =? 133) || (n =? 160))%N.

(** [s.isdigit()]: at least one character, and all of them digits. *)
Fixpoint all_chars (p : ascii -> bool) (s : string) : bool :=
  match s with
  | EmptyString => true
  | String c r => p c && all_chars p r
  end.

Definition isdigit (s : string) : bool :=
  match s with
  | EmptyString => false
  | String _ _ => all_chars isdigit_char s
  end.

(** [s.replace(old, new)] for a one-character [old]. *)
Fixpoint replace (old : ascii) (new : string) (s : string) : string :=
  match s with
  | EmptyString => EmptyString
  | String c r =>
      if Ascii.eqb c old then new ++ replace old new r
      else String c (replace old new r)
  end.

(** [s.strip()] *)
Fixpoint lstrip (s : string) : string :=
  match s with
  | EmptyString => EmptyString
  | String c r => if isspace_char c then lstrip r else s
  end.

Fixpoint rstrip (s : string) : string :=
  match s with
  | EmptyString => EmptyString
  | String c r =>
      match rstrip r with
      | EmptyString => if isspace_char c then EmptyString else String c EmptyString
      | r' => String c r'
      end
  end.

Definition strip (s : string) : string := rstrip (lstrip s).

(** [s.split(sep)] for a one-character separator: the fields of [s]. *)
Fixpoint split (sep : ascii) (s : string) : list string :=
  match s with
  | EmptyString => [EmptyString]
  | String c r =>
      if Ascii.eqb c sep then EmptyString :: split sep r
      else match split sep r with
           | f :: fs => String c f :: fs
           | [] => [String c EmptyString]
           end
  end.

Fixpoint contains (c : ascii) (s : string) : bool :=
  match s with
  | EmptyString => false
  | String d r => Ascii.eqb d c || contains c r
  end.

(** ** Python values and exceptions *)

(** What [response.json()] can return.  A float is kept as its [repr], the
    only thing the program ever does with one; a dict keeps its items in
    insertion order. *)
#[warnings="-register-all"]
Inductive pyobj : Type :=
| PNone
| PBool (b : bool)
| PInt (z : Z)
| PFloat (repr : string)
| PStr (s : string)
| PList (items : list pyobj)
| PDict (items : list (string * pyobj)).

Inductive request_failure : Type :=
| ConnectionError
| Timeout
| HTTPError (status : Z)
| JSONDecodeError
| InvalidURL
| OtherRequestFailure.

(** The exceptions the run can meet; all of them derive from [Exception].
    [RequestException] stands for [requests.exceptions.RequestException] and
    its subclasses.  What derives from [BaseException] only
    ([KeyboardInterrupt], [SystemExit]) comes from the process, not from the
    service, and has no constructor here. *)
Inductive exn : Type :=
| RequestException (why : request_failure)
| KeyError
| IndexError
| TypeError
| AttributeError
| ValueError
| OtherException.

Definition is_RequestException (e : exn) : bool :=
  match e with
  | RequestException _ => true
  | _ => false
  end.

Inductive result (A : Type) : Type :=
| Ok (a : A)
| Raise (e : exn).
Arguments Ok {A} a.
Arguments Raise {A} e.

(** *** Formatting a value inside an f-string: [str(v)] *)

Definition hexdigit (n : N) : ascii :=
  if (n <? 10)%N then ascii_of_N (48 + n) else ascii_of_N (87 + n).

Definition isprintable_char (c : ascii) : bool :=
  let n := code c in
  ((32 <=? n) && (n <? 127) || (161 <=? n) && negb (n =? 173))%N.

Definition DQUOTE : ascii := "034"%char.
Definition SQUOTE : ascii := "039"%char.
Definition BACKSLASH : ascii := "092"%char.

Definition repr_char (quote c : ascii) : string :=
  if Ascii.eqb c quote || Ascii.eqb c BACKSLASH then String BACKSLASH (String c "")
  else if Ascii.eqb c TAB then String BACKSLASH "t"
  else if Ascii.eqb c LF then String BACKSLASH "n"
  else if Ascii.eqb c "013"%char then String BACKSLASH "r"
  else if isprintable_char c then String c ""
  else String BACKSLASH
         (String "x" (String (hexdigit (code c / 16)) (String (hexdigit (code c mod 16)) ""))).

Fixpoint repr_chars (quote : ascii) (s : string) : string :=
  match s with
  | EmptyString => EmptyString
  | String c r => repr_char quote c ++ repr_chars quote r
  end.

Definition repr_str (s : string) : string :=
  let quote := if contains SQUOTE s && negb (contains DQUOTE s) then DQUOTE else SQUOTE in
  String quote (repr_chars quote s ++ String quote "").

Definition str_int (z : Z) : string := NilZero.string_of_int (Z.to_int z).

Fixpoint py_repr (v : pyobj) : string :=
  match v with
  | PNone => "None"
  | PBool true => "True"
  | PBool false => "False"
  | PInt z => str_int z
  | PFloat r => r
  | PStr s => repr_str s
  | PList items =>
      "[" ++ (fix join (l : list pyobj) : string :=
                match l with
                | [] => ""
                | x :: r =>
                    match r with
                    | [] => py_repr x
                    | _ :: _ => py_repr x ++ ", " ++ join r
                    end
                end) items ++ "]"
  | PDict items =>
      "{" ++ (fix join (l : list (string * pyobj)) : string :=
                match l with
                | [] => ""
                | (k, x) :: r =>
                    match r with
                    | [] => repr_str k ++ ": " ++ py_repr x
                    | _ :: _ => repr_str k ++ ": " ++ py_repr x ++ ", " ++ join r
                    end
                end) items ++ "}"
  end.

Definition py_str (v : pyobj) : string :=
  match v with
  | PStr s => s
  | _ => py_repr v
  end.

(** *** Subscripting and iteration *)

Fixpoint lookup (k : string) (d : list (string * pyobj)) : option pyobj :=
  match d with
  | [] => None
  | (k', v) :: r => if String.eqb k' k then Some v else lookup k r
  end.

(** [v[key]] with a [str] key. *)
Definition getitem_key (v : pyobj) (key : string) : result pyobj :=
  match v with
  | PDict d =>
      match lookup key d with
      | Some x => Ok x
      | None => Raise KeyError
      end
  | _ => Raise TypeError
  end.

(** [v[0]] *)
Definition getitem_0 (v : pyobj) : result pyobj :=
  match v with
  | PList (x :: _) => Ok x
  | PList [] => Raise IndexError
  | PStr (String c _) => Ok (PStr (String c ""))
  | PStr EmptyString => Raise IndexError
  | PDict _ => Raise KeyError
  | _ => Raise TypeError
  end.

Fixpoint chars (s : string) : list pyobj :=
  match s with
  | EmptyString => []
  | String c r => PStr (String c "") :: chars r
  end.

(** [iter(v)], as the elements the iteration yields. *)
Definition py_iter (v : pyobj) : result (list pyobj) :=
  match v with
  | PList items => Ok items
  | PStr s => Ok (chars s)
  | PDict d => Ok (map (fun kv => PStr (fst kv)) d)
  | _ => Raise TypeError
  end.

(** ** The service, the observable state and the monad *)

(** An HTTP response as the program uses it: the status code, the decoded
    body [.text], and what [.json()] does on it. *)
Record response : Type := {
  status_code : Z;
  text : string;
  json : result pyobj
}.

(** What [requests.get(url, timeout=10)] does for a URL: it raises, or it
    returns a response (whatever its status).  One call asks for four
    pairwise distinct URLs ([urls_distinct] below), so a function of the URL
    describes any behaviour of the service during the call. *)
Definition remote : Type := string -> result response.

Record request : Type := {
  req_url : string;
  req_timeout : Z
}.

(** A record handed to [logging.error]: which of the two messages, the
    compound name and the exception formatted into it. *)
Inductive log_message : Type :=
| Request_failed_for (compound_name : string) (e : exn)
| Unexpected_error_for (compound_name : string) (e : exn).

Record world : Type := {
  sent : list request;
  logged : list log_message;
  stdout : string
}.

Definition start : world := {| sent := []; logged := []; stdout := "" |}.

Definition M (A : Type) : Type := world -> result A * world.

Definition ret {A} (a : A) : M A := fun w => (Ok a, w).

Definition bind {A B} (m : M A) (k : A -> M B) : M B :=
  fun w =>
    match m w with
    | (Ok a, w') => k a w'
    | (Raise e, w') => (Raise e, w')
    end.

Definition lift {A} (r : result A) : M A := fun w => (r, w).

(** [try: body except Exception as e: handler e] *)
Definition try_except {A} (body : M A) (handler : exn -> M A) : M A :=
  fun w =>
    match body w with
    | (Ok a, w') => (Ok a, w')
    | (Raise e, w') => handler e w'
    end.

Declare Scope py_scope.
Delimit Scope py_scope with py.
Notation "x <- m ;; k" := (bind m (fun x => k))
  (at level 61, m at next level, right associativity) : py_scope.
Notation "m ;;; k" := (bind m (fun _ => k))
  (at level 61, right associativity) : py_scope.
Open Scope py_scope.

Definition requests_get (net : remote) (url : string) (timeout : Z) : M response :=
  fun w =>
    (net url,
     {| sent := sent w ++ [{| req_url := url; req_timeout := timeout |}];
        logged := logged w;
        stdout := stdout w |}).

(** [response.raise_for_status()]: an [HTTPError] for a 4xx or 5xx status. *)
Definition raise_for_status (r : response) : result unit :=
  if (400 <=? status_code r) && (status_code r <? 600)
  then Raise (RequestException (HTTPError (status_code r)))
  else Ok tt.

Definition logging_error (m : log_message) : M unit :=
  fun w =>
    (Ok tt, {| sent := sent w; logged := logged w ++ [m]; stdout := stdout w |}).

Definition print (s : string) : M unit :=
  fun w =>
    (Ok tt, {| sent := sent w; logged := logged w; stdout := stdout w ++ s ++ LFs |}).

(** ** The program *)

Definition base_url : string := "https://pubchem.ncbi.nlm.nih.gov/rest/pug".

Definition cid_url (compound_name : string) : string :=
  base_url ++ "/compound/name/" ++ compound_name ++ "/cids/JSON".

Definition synonyms_url (cid : pyobj) : string :=
  base_url ++ "/compound/cid/" ++ py_str cid ++ "/synonyms/JSON".

Definition iupac_url (cid : pyobj) : string :=
  base_url ++ "/compound/cid/" ++ py_str cid ++ "/property/IUPACName/TXT".

Definition smiles_url (cid : pyobj) : string :=
  base_url ++ "/compound/cid/" ++ py_str cid ++ "/property/IsomericSMILES/TXT".

Definition Not_found : string := "Not found".

Definition fallback : string :=
  Not_found ++ TABs ++ Not_found ++ TABs ++ Not_found.

(** [data['IdentifierList']['CID'][0]] *)
Definition first_cid (data : pyobj) : result pyobj :=
  match getitem_key data "IdentifierList" with
  | Ok l =>
      match getitem_key l "CID" with
      | Ok c => getitem_0 c
      | Raise e => Raise e
      end
  | Raise e => Raise e
  end.

(** [body['InformationList']['Information'][0]['Synonym']] *)
Definition synonym_field (body : pyobj) : result pyobj :=
  match getitem_key body "InformationList" with
  | Ok l =>
      match getitem_key l "Information" with
      | Ok i =>
          match getitem_0 i with
          | Ok r => getitem_key r "Synonym"
          | Raise e => Raise e
          end
      | Raise e => Raise e
      end
  | Raise e => Raise e
  end.

(** [next((s for s in items if s.replace('-', '').isdigit()), 'Not found')]
    over the elements the iteration yields: an element without [.replace]
    met before the first match raises [AttributeError]. *)
Fixpoint first_cas (items : list pyobj) : result string :=
  match items with
  | [] => Ok Not_found
  | PStr s :: rest =>
      if isdigit (replace HYPHEN "" s) then Ok s else first_cas rest
  | _ :: _ => Raise AttributeError
  end.

Definition select_cas (synonyms : pyobj) : result string :=
  match py_iter synonyms with
  | Ok items => first_cas items
  | Raise e => Raise e
  end.

(** The [try] block of [get_compound_info]. *)
Definition get_compound_info_body (net : remote) (compound_name : string) : M string :=
  response <- requests_get net (cid_url compound_name) 10 ;;
  lift (raise_for_status response) ;;;
  data <- lift (json response) ;;
  cid <- lift (first_cid data) ;;
  response <- requests_get net (synonyms_url cid) 10 ;;
  lift (raise_for_status response) ;;;
  body <- lift (json response) ;;
  synonyms <- lift (synonym_field body) ;;
  cas <- lift (select_cas synonyms) ;;
  response <- requests_get net (iupac_url cid) 10 ;;
  let iupac := strip (text response) in
  response <- requests_get net (smiles_url cid) 10 ;;
  let smiles := strip (text response) in
  ret (cas ++ TABs ++ iupac ++ TABs ++ smiles).

Definition get_compound_info (net : remote) (compound_name : string) : M string :=
  try_except (get_compound_info_body net compound_name)
    (fun e =>
       if is_RequestException e then
         logging_error (Request_failed_for compound_name e) ;;;
         ret fallback
       else
         logging_error (Unexpected_error_for compound_name e) ;;;
         ret fallback).

Definition usage : string := "Usage: python get_compound_info2.py <compound_name>".

(** The [__main__] block; the value is the exit status of the process. *)
Definition main (net : remote) (argv : list string) : M Z :=
  if Z.of_nat (length argv) <? 2 then
    print usage ;;;
    ret 1
  else
    line <- get_compound_info net (nth 1 argv "") ;;
    print line ;;;
    ret 0.

(** A run from the initial state. *)
Definition run {A} (m : M A) : result A * world := m start.

(** An exception that leaves [main] ends the process with status 1. *)
Definition exit_status (r : result Z) : Z :=
  match r with
  | Ok z => z
  | Raise _ => 1
  end.

(** ** What the statements speak about *)

Definition not_hyphen (c : ascii) : bool := negb (Ascii.eqb c HYPHEN).

(** The wording of the specification: the content of [s], hyphens removed,
    consists entirely of digits (and there is something left). *)
Definition digits_once_hyphens_removed (s : string) : Prop :=
  let content := filter not_hyphen (list_ascii_of_string s) in
  content <> [] /\ Forall (fun c => isdigit_char c = true) content.

(** A string of digits and hyphens, with a digit in it. *)
Definition digits_and_hyphens (s : string) : Prop :=
  Forall (fun c => isdigit_char c = true \/ c = HYPHEN) (list_ascii_of_string s) /\
  Exists (fun c => isdigit_char c = true) (list_ascii_of_string s).

(** The output is one line of three non-empty tab-delimited fields. *)
Definition three_fields_line (out : string) : Prop :=
  exists line a b c,
    out = line ++ LFs /\ contains LF line = false /\
    split TAB line = [a; b; c] /\ a <> "" /\ b <> "" /\ c <> "".

(** ** Fixtures: the service of the ethanol example and variations of it *)

Definition ok200 (body : string) (parsed : result pyobj) : result response :=
  Ok {| status_code := 200; text := body; json := parsed |}.

Definition no_json : result pyobj := Raise (RequestException JSONDecodeError).

Definition cids_702 : pyobj :=
  PDict [("IdentifierList", PDict [("CID", PList [PInt 702])])].

Definition synonyms_of (names : list string) : pyobj :=
  PDict [("InformationList",
          PDict [("Information",
                  PList [PDict [("CID", PInt 702);
                                ("Synonym", PList (map PStr names))]])])].

(** A service that knows the four URLs of the ethanol lookup and nothing else. *)
Definition ethanol_service (r1 r2 r3 r4 : result response) : remote :=
  fun url =>
    if String.eqb url (cid_url "ethanol") then r1
    else if String.eqb url (synonyms_url (PInt 702)) then r2
    else if String.eqb url (iupac_url (PInt 702)) then r3
    else if String.eqb url (smiles_url (PInt 702)) then r4
    else Raise (RequestException ConnectionError).

Definition r_cids : result response := ok200 "{}" (Ok cids_702).
Definition r_synonyms : result response :=
  ok200 "{}" (Ok (synonyms_of ["ethanol"; "64-17-5"; "alcohol"])).
Definition r_iupac : result response := ok200 ("ethanol" ++ LFs) no_json.
Definition r_smiles : result response := ok200 ("CCO" ++ LFs) no_json.

Definition ethanol_net : remote :=
  ethanol_service r_cids r_synonyms r_iupac r_smiles.

(** Endpoint 3 answers 404 with an error body. *)
Definition r_404 : response :=
  {| status_code := 404; text := "Status: 404" ++ LFs; json := no_json |}.

Definition iupac_404_net : remote :=
  ethanol_service r_cids r_synonyms (Ok r_404) r_smiles.

(** Endpoint 3 answers 200 with an empty line: the compound has no name. *)
Definition empty_iupac_net : remote :=
  ethanol_service r_cids r_synonyms (ok200 LFs no_json) r_smiles.

(** Endpoint 3 answers 200 with two records, the first of two columns. *)
Definition two_records_net : remote :=
  ethanol_service r_cids r_synonyms
    (ok200 ("ethanol" ++ TABs ++ "EtOH" ++ LFs ++ "alcohol" ++ LFs) no_json) r_smiles.


(** Nothing can be reached. *)
Definition down_net : remote := fun _ => Raise (RequestException ConnectionError).

(** ** The run of the [try] block, request by request *)

(** Lines 41-44: what the first request yields. *)
Definition resolve_cid (net : remote) (compound_name : string) : result pyobj :=
  match net (cid_url compound_name) with
  | Ok response =>
      match raise_for_status response with
      | Ok _ =>
          match json response with
          | Ok data => first_cid data
          | Raise e => Raise e
          end
      | Raise e => Raise e
      end
  | Raise e => Raise e
  end.

(** Lines 48-51: what the second request yields. *)
Definition resolve_cas (net : remote) (cid : pyobj) : result string :=
  match net (synonyms_url cid) with
  | Ok response =>
      match raise_for_status response with
      | Ok _ =>
          match json response with
          | Ok body =>
              match synonym_field body with
              | Ok synonyms => select_cas synonyms
              | Raise e => Raise e
              end
          | Raise e => Raise e
          end
      | Raise e => Raise e
      end
  | Raise e => Raise e
  end.

Definition GET (url : string) : request := {| req_url := url; req_timeout := 10 |}.

(** The state after some more requests. *)
Definition sending (w : world) (rs : list request) : world :=
  {| sent := sent w ++ rs; logged := logged w; stdout := stdout w |}.

(** The state after one more log record. *)
Definition logging (w : world) (m : log_message) : world :=
  {| sent := sent w; logged := logged w ++ [m]; stdout := stdout w |}.

Definition error_record (compound_name : string) (e : exn) : log_message :=
  if is_RequestException e then Request_failed_for compound_name e
  else Unexpected_error_for compound_name e.

(** The ways the first step can fail, as the claims word them, each with
    the exception it ends in: the request raises; the answer carries a 4xx or
    5xx status; its body is not JSON; or the JSON holds no first identifier
    under ['IdentifierList']['CID']. *)
Inductive no_first_identifier : pyobj -> exn -> Prop :=
| nfi_not_an_object data :
    (forall d, data <> PDict d) ->
    no_first_identifier data TypeError
| nfi_no_IdentifierList d :
    lookup "IdentifierList" d = None ->
    no_first_identifier (PDict d) KeyError
| nfi_IdentifierList_not_an_object d v :
    lookup "IdentifierList" d = Some v ->
    (forall l, v <> PDict l) ->
    no_first_identifier (PDict d) TypeError
| nfi_no_CID d l :
    lookup "IdentifierList" d = Some (PDict l) ->
    lookup "CID" l = None ->
    no_first_identifier (PDict d) KeyError
| nfi_CID_empty_list d l :
    lookup "IdentifierList" d = Some (PDict l) ->
    lookup "CID" l = Some (PList []) ->
    no_first_identifier (PDict d) IndexError
| nfi_CID_empty_string d l :
    lookup "IdentifierList" d = Some (PDict l) ->
    lookup "CID" l = Some (PStr "") ->
    no_first_identifier (PDict d) IndexError
| nfi_CID_object d l o :
    lookup "IdentifierList" d = Some (PDict l) ->
    lookup "CID" l = Some (PDict o) ->
    no_first_identifier (PDict d) KeyError
| nfi_CID_scalar d l v :
    lookup "IdentifierList" d = Some (PDict l) ->
    lookup "CID" l = Some v ->
    v = PNone \/ (exists b, v = PBool b) \/ (exists z, v = PInt z) \/
    (exists r, v = PFloat r) ->
    no_first_identifier (PDict d) TypeError.

Inductive endpoint1_failure (net : remote) (compound_name : string) : exn -> Prop :=
| e1_request_raises e :
    net (base_url ++ "/compound/name/" ++ compound_name ++ "/cids/JSON") = Raise e ->
    endpoint1_failure net compound_name e
| e1_error_status r :
    net (base_url ++ "/compound/name/" ++ compound_name ++ "/cids/JSON") = Ok r ->
    400 <= status_code r < 600 ->
    endpoint1_failure net compound_name (RequestException (HTTPError (status_code r)))
| e1_body_not_json r e :
    net (base_url ++ "/compound/name/" ++ compound_name ++ "/cids/JSON") = Ok r ->
    ~ (400 <= status_code r < 600) ->
    json r = Raise e ->
    endpoint1_failure net compound_name e
| e1_no_first_identifier r data e :
    net (base_url ++ "/compound/name/" ++ compound_name ++ "/cids/JSON") = Ok r ->
    ~ (400 <= status_code r < 600) ->
    json r = Ok data ->
    no_first_identifier data e ->
    endpoint1_failure net compound_name e.

(** Endpoint 1 answers 200 with a string, not a list, under ['CID']; the
    other endpoints know the identifier [7]. *)
Definition cids_string : pyobj :=
  PDict [("IdentifierList", PDict [("CID", PStr "702")])].

Definition string_cid_net : remote :=
  fun url =>
    if String.eqb url (cid_url "ethanol") then ok200 "{}" (Ok cids_string)
    else if String.eqb url (synonyms_url (PStr "7")) then r_synonyms
    else if String.eqb url (iupac_url (PStr "7")) then r_iupac
    else if String.eqb url (smiles_url (PStr "7")) then r_smiles
    else Raise (RequestException ConnectionError).

(** Endpoint 1 answers 200 with a JSON body that has no ['IdentifierList']. *)
Definition fault_net : remote :=
  ethanol_service (ok200 "{}" (Ok (PDict [("Fault", PDict [])])))
    r_synonyms r_iupac r_smiles.

(** Measures on strings used by the statements about the output. *)
Fixpoint count_char (c : ascii) (s : string) : nat :=
  match s with
  | EmptyString => O
  | String d r => if Ascii.eqb d c then S (count_char c r) else count_char c r
  end.

Definition first_char (s : string) : option ascii :=
  match s with
  | EmptyString => None
  | String c _ => Some c
  end.

Fixpoint last_char (s : string) : option ascii :=
  match s with
  | EmptyString => None
  | String c r =>
      match r with
      | EmptyString => Some c
      | String _ _ => last_char r
      end
  end.

Lemma sending_sending w rs rs' :
  sending (sending w rs) rs' = sending w (rs ++ rs').
Proof.
  unfold sending; cbn. now rewrite app_assoc.
Qed.

Lemma requests_get_eq net url w :
  requests_get net url 10 w = (net url, sending w [GET url]).
Proof. reflexivity. Qed.

Lemma bind_eq {A B} (m : M A) (k : A -> M B) w r w' :
  m w = (r, w') ->
  bind m k w = match r with Ok a => k a w' | Raise e => (Raise e, w') end.
Proof.
  unfold bind. intros ->. reflexivity.
Qed.

Lemma bind_lift {A B} (r : result A) (k : A -> M B) w :
  bind (lift r) k w = match r with Ok a => k a w | Raise e => (Raise e, w) end.
Proof. reflexivity. Qed.

Lemma body_run net compound_name w :
  get_compound_info_body net compound_name w =
  match resolve_cid net compound_name with
  | Raise e => (Raise e, sending w [GET (cid_url compound_name)])
  | Ok cid =>
      match resolve_cas net cid with
      | Raise e =>
          (Raise e, sending w [GET (cid_url compound_name); GET (synonyms_url cid)])
      | Ok cas =>
          match net (iupac_url cid) with
          | Raise e =>
              (Raise e,
               sending w [GET (cid_url compound_name); GET (synonyms_url cid);
                          GET (iupac_url cid)])
          | Ok r3 =>
              match net (smiles_url cid) with
              | Raise e =>
                  (Raise e,
                   sending w [GET (cid_url compound_name); GET (synonyms_url cid);
                              GET (iupac_url cid); GET (smiles_url cid)])
              | Ok r4 =>
                  (Ok (cas ++ TABs ++ strip (text r3) ++ TABs ++ strip (text r4)),
                   sending w [GET (cid_url compound_name); GET (synonyms_url cid);
                              GET (iupac_url cid); GET (smiles_url cid)])
              end
          end
      end
  end.
Proof.
  unfold get_compound_info_body, resolve_cid.
  rewrite (bind_eq _ _ _ _ _ (requests_get_eq net _ w)).
  destruct (net (cid_url compound_name)) as [r1|e]; [|reflexivity].
  rewrite bind_lift.
  destruct (raise_for_status r1) as [[]|e]; [|reflexivity].
  rewrite bind_lift.
  destruct (json r1) as [data|e]; [|reflexivity].
  rewrite bind_lift.
  destruct (first_cid data) as [cid|e]; [|reflexivity].
  unfold resolve_cas.
  rewrite (bind_eq _ _ _ _ _ (requests_get_eq net _ _)), sending_sending.
  destruct (net (synonyms_url cid)) as [r2|e]; [|reflexivity].
  rewrite bind_lift.
  destruct (raise_for_status r2) as [[]|e]; [|reflexivity].
  rewrite bind_lift.
  destruct (json r2) as [body|e]; [|reflexivity].
  rewrite bind_lift.
  destruct (synonym_field body) as [synonyms|e]; [|reflexivity].
  rewrite bind_lift.
  destruct (select_cas synonyms) as [cas|e]; [|reflexivity].
  rewrite (bind_eq _ _ _ _ _ (requests_get_eq net _ _)), sending_sending.
  destruct (net (iupac_url cid)) as [r3|e]; [|reflexivity].
  rewrite (bind_eq _ _ _ _ _ (requests_get_eq net _ _)), sending_sending.
  destruct (net (smiles_url cid)) as [r4|e]; reflexivity.
Qed.

Lemma handler_run compound_name e w :
  (if is_RequestException e then
     logging_error (Request_failed_for compound_name e) ;;; ret fallback
   else
     logging_error (Unexpected_error_for compound_name e) ;;; ret fallback) w =
  (Ok fallback, logging w (error_record compound_name e)).
Proof.
  unfold error_record. destruct (is_RequestException e); reflexivity.
Qed.

Lemma get_compound_info_run net compound_name w :
  get_compound_info net compound_name w =
  match get_compound_info_body net compound_name w with
  | (Ok s, w') => (Ok s, w')
  | (Raise e, w') => (Ok fallback, logging w' (error_record compound_name e))
  end.
Proof.
  unfold get_compound_info, try_except.
  destruct (get_compound_info_body net compound_name w) as [[s|e] w']; [reflexivity|].
  apply handler_run.
Qed.

(** ** Strings: what the primitives compute *)

Lemma replace_hyphen_chars s :
  list_ascii_of_string (replace HYPHEN "" s) =
  filter not_hyphen (list_ascii_of_string s).
Proof.
  induction s as [|c r IH]; [reflexivity|].
  cbn [replace list_ascii_of_string filter]. unfold not_hyphen at 1.
  destruct (Ascii.eqb c HYPHEN); cbn; now rewrite IH.
Qed.

Lemma all_chars_Forall p s :
  all_chars p s = true <-> Forall (fun c => p c = true) (list_ascii_of_string s).
Proof.
  induction s as [|c r IH]; cbn.
  - split; auto.
  - rewrite andb_true_iff, IH. split.
    + intros [? ?]; now constructor.
    + intros H; inversion H; auto.
Qed.

Lemma isdigit_spec s :
  isdigit s = true <->
  list_ascii_of_string s <> [] /\
  Forall (fun c => isdigit_char c = true) (list_ascii_of_string s).
Proof.
  destruct s as [|c r].
  - cbn. split; [discriminate | intros [H _]; now elim H].
  - unfold isdigit. rewrite all_chars_Forall. cbn. split.
    + intros H; split; [discriminate | exact H].
    + now intros [_ H].
Qed.

Lemma matches_spec s :
  isdigit (replace HYPHEN "" s) = true <-> digits_once_hyphens_removed s.
Proof.
  unfold digits_once_hyphens_removed.
  now rewrite isdigit_spec, replace_hyphen_chars.
Qed.

Lemma no_match_spec s :
  isdigit (replace HYPHEN "" s) = false <-> ~ digits_once_hyphens_removed s.
Proof.
  rewrite <- matches_spec. destruct (isdigit (replace HYPHEN "" s)); split; intros H;
    try reflexivity; try discriminate; try congruence.
Qed.


(** Whatever the elements are, a selected value is the default or a match. *)
Lemma first_cas_result items s :
  first_cas items = Ok s -> s = Not_found \/ digits_once_hyphens_removed s.
Proof.
  induction items as [|x rest IH]; cbn.
  - intros [= <-]. now left.
  - destruct x; try discriminate.
    destruct (isdigit (replace HYPHEN "" s0)) eqn:E; [|exact IH].
    intros [= <-]. right. now apply matches_spec.
Qed.

Lemma select_cas_result synonyms s :
  select_cas synonyms = Ok s -> s = Not_found \/ digits_once_hyphens_removed s.
Proof.
  unfold select_cas. destruct (py_iter synonyms); [apply first_cas_result | discriminate].
Qed.


Lemma not_hyphen_false c : not_hyphen c = false -> c = HYPHEN.
Proof.
  unfold not_hyphen. intros H. apply negb_false_iff in H. now apply Ascii.eqb_eq.
Qed.

Lemma filter_digits_Forall (l : list ascii) :
  Forall (fun c => isdigit_char c = true) (filter not_hyphen l) ->
  Forall (fun c => isdigit_char c = true \/ c = HYPHEN) l.
Proof.
  induction l as [|c r IH]; cbn [filter]; [constructor|].
  destruct (not_hyphen c) eqn:E; intros H.
  - inversion H; subst. constructor; auto.
  - constructor; auto. right. now apply not_hyphen_false.
Qed.

Lemma filter_digits_Exists (l : list ascii) :
  filter not_hyphen l <> [] ->
  Forall (fun c => isdigit_char c = true) (filter not_hyphen l) ->
  Exists (fun c => isdigit_char c = true) l.
Proof.
  induction l as [|c r IH]; cbn [filter].
  - intros H; now elim H.
  - destruct (not_hyphen c) eqn:E; intros Hne H.
    + inversion H; subst. now apply Exists_cons_hd.
    + apply Exists_cons_tl; auto.
Qed.

Lemma digits_once_hyphens_removed_shape s :
  digits_once_hyphens_removed s -> digits_and_hyphens s.
Proof.
  intros [H1 H2]. split; [now apply filter_digits_Forall | now apply filter_digits_Exists].
Qed.

Lemma split_not_nil sep s : split sep s <> [].
Proof.
  destruct s as [|c r]; cbn; [discriminate|].
  destruct (Ascii.eqb c sep); [discriminate|].
  destruct (split sep r); discriminate.
Qed.

Lemma split_field sep a r :
  contains sep a = false ->
  split sep (a ++ String sep r) = a :: split sep r.
Proof.
  induction a as [|c a IH]; cbn [contains append split].
  - intros _. now rewrite Ascii.eqb_refl.
  - intros H. apply orb_false_iff in H as [Hc Ha].
    rewrite Hc, (IH Ha). reflexivity.
Qed.

Lemma split_last sep a :
  contains sep a = false -> split sep a = [a].
Proof.
  induction a as [|c a IH]; cbn [contains split]; [reflexivity|].
  intros H. apply orb_false_iff in H as [Hc Ha].
  rewrite Hc, (IH Ha). reflexivity.
Qed.

Lemma split_three sep a b c :
  contains sep a = false -> contains sep b = false -> contains sep c = false ->
  split sep (a ++ String sep "" ++ b ++ String sep "" ++ c) = [a; b; c].
Proof.
  intros Ha Hb Hc. cbn [append].
  now rewrite (split_field _ _ _ Ha), (split_field _ _ _ Hb), (split_last _ _ Hc).
Qed.

Lemma contains_app c a b :
  contains c (a ++ b) = contains c a || contains c b.
Proof.
  induction a as [|d a IH]; cbn; [reflexivity|].
  now rewrite IH, orb_assoc.
Qed.

Lemma contains_In c s :
  contains c s = true -> In c (list_ascii_of_string s).
Proof.
  induction s as [|d r IH]; cbn; [discriminate|].
  intros H. apply orb_true_iff in H as [H|H]; [left; now apply Ascii.eqb_eq | right; auto].
Qed.

(** A registry number holds neither a tab nor a line feed. *)
Lemma digits_and_hyphens_plain s c :
  digits_and_hyphens s -> isdigit_char c = false -> c <> HYPHEN ->
  contains c s = false.
Proof.
  intros [Hall _] Hd Hh.
  destruct (contains c s) eqn:E; [|reflexivity].
  apply contains_In in E.
  rewrite Forall_forall in Hall. destruct (Hall _ E) as [H|H]; congruence.
Qed.

Lemma digits_and_hyphens_not_empty s : digits_and_hyphens s -> s <> "".
Proof.
  intros [_ H] ->. inversion H.
Qed.

Lemma cas_plain cas c :
  cas = Not_found \/ digits_once_hyphens_removed cas ->
  isdigit_char c = false -> c <> HYPHEN -> contains c Not_found = false ->
  contains c cas = false /\ cas <> "".
Proof.
  intros [->|H] Hd Hh Hn.
  - split; [assumption | discriminate].
  - apply digits_once_hyphens_removed_shape in H.
    split; [now apply digits_and_hyphens_plain | now apply digits_and_hyphens_not_empty].
Qed.

Lemma append_LFs_inj a b : a ++ LFs = b ++ LFs -> a = b.
Proof.
  revert b. induction a as [|c a IH]; intros [|d b]; cbn; intros H.
  - reflexivity.
  - injection H as _ H. destruct b; discriminate.
  - injection H as _ H. destruct a; discriminate.
  - injection H as -> H. f_equal. now apply IH.
Qed.

Lemma append_cancel (p a b : string) : p ++ a = p ++ b -> a = b.
Proof.
  induction p as [|c p IH]; cbn; [auto|].
  intros H. injection H as H. auto.
Qed.

(** The four URLs of one call are pairwise distinct, so a service given as a
    function of the URL can answer each request of the call independently. *)
Lemma urls_distinct compound_name cid :
  NoDup [cid_url compound_name; synonyms_url cid; iupac_url cid; smiles_url cid].
Proof.
  assert (H1 : forall rest, cid_url compound_name <> base_url ++ "/compound/cid/" ++ rest).
  { intros rest H. apply append_cancel in H. discriminate. }
  assert (H2 : forall a b : string, a <> b ->
             base_url ++ "/compound/cid/" ++ py_str cid ++ a <>
             base_url ++ "/compound/cid/" ++ py_str cid ++ b).
  { intros a b Hab H. now do 3 apply append_cancel in H. }
  unfold synonyms_url, iupac_url, smiles_url in *.
  repeat constructor; cbn [In]; intros H;
    repeat match goal with
           | H : _ \/ _ |- _ => destruct H as [H|H]
           | H : False |- _ => destruct H
           end;
    try (now apply H1 in H); try (symmetry in H; now apply H1 in H);
    try (revert H; apply H2; discriminate).
Qed.

(** The service's answers when endpoints 1 and 2 go through. *)
Lemma success_run net compound_name cid cas r3 r4 :
  resolve_cid net compound_name = Ok cid ->
  resolve_cas net cid = Ok cas ->
  net (iupac_url cid) = Ok r3 ->
  net (smiles_url cid) = Ok r4 ->
  run (get_compound_info net compound_name) =
  (Ok (cas ++ TABs ++ strip (text r3) ++ TABs ++ strip (text r4)),
   {| sent := [GET (cid_url compound_name); GET (synonyms_url cid);
               GET (iupac_url cid); GET (smiles_url cid)];
      logged := [];
      stdout := "" |}).
Proof.
  intros H1 H2 H3 H4. unfold run.
  rewrite get_compound_info_run, body_run, H1, H2, H3, H4. reflexivity.
Qed.


Lemma resolve_cas_result net cid cas :
  resolve_cas net cid = Ok cas ->
  cas = Not_found \/ digits_once_hyphens_removed cas.
Proof.
  unfold resolve_cas.
  destruct (net (synonyms_url cid)) as [r|]; [|discriminate].
  destruct (raise_for_status r); [|discriminate].
  destruct (json r) as [b|]; [|discriminate].
  destruct (synonym_field b) as [syn|]; [|discriminate].
  apply select_cas_result.
Qed.

Lemma main_run net argv :
  (2 <= length argv)%nat ->
  run (main net argv) =
  match run (get_compound_info net (nth 1 argv "")) with
  | (Ok line, w) =>
      (Ok 0, {| sent := sent w; logged := logged w; stdout := stdout w ++ line ++ LFs |})
  | (Raise e, w) => (Raise e, w)
  end.
Proof.
  intros H. unfold main.
  destruct (Z.ltb_spec (Z.of_nat (length argv)) 2) as [Hlt|_]; [lia|].
  unfold run, bind.
  destruct (get_compound_info net (nth 1 argv "") start) as [[line|e] w]; reflexivity.
Qed.

(** ** The example of the specification, and a few values *)

Example ethanol_lookup :
  run (main ethanol_net ["get_compound_info2.py"; "ethanol"]) =
  (Ok 0,
   {| sent := [GET "https://pubchem.ncbi.nlm.nih.gov/rest/pug/compound/name/ethanol/cids/JSON";
               GET "https://pubchem.ncbi.nlm.nih.gov/rest/pug/compound/cid/702/synonyms/JSON";
               GET "https://pubchem.ncbi.nlm.nih.gov/rest/pug/compound/cid/702/property/IUPACName/TXT";
               GET "https://pubchem.ncbi.nlm.nih.gov/rest/pug/compound/cid/702/property/IsomericSMILES/TXT"];
      logged := [];
      stdout := "64-17-5" ++ TABs ++ "ethanol" ++ TABs ++ "CCO" ++ LFs |}).
Proof. reflexivity. Qed.

Example fallback_fields : split TAB fallback = ["Not found"; "Not found"; "Not found"].
Proof. reflexivity. Qed.

Example strip_both_ends : strip (String TAB " a b " ++ LFs) = "a b".
Proof. reflexivity. Qed.

Example str_of_values :
  py_str (PInt (-5)) = "-5" /\ py_str (PStr "702") = "702" /\
  py_str (PList [PInt 1; PStr "a'b"; PNone; PBool true]) =
  "[1, " ++ String DQUOTE ("a'b" ++ String DQUOTE ", None, True]").
Proof. repeat split. Qed.

Example string_cid_yields_its_first_character :
  first_cid (PDict [("IdentifierList", PDict [("CID", PStr "702")])]) = Ok (PStr "7").
Proof. reflexivity. Qed.

Example status_300_is_not_raised :
  raise_for_status {| status_code := 300; text := ""; json := no_json |} = Ok tt.
Proof. reflexivity. Qed.

Example non_string_synonym_raises :
  select_cas (PList [PStr "ethanol"; PInt 64; PStr "64-17-5"]) = Raise AttributeError.
Proof. reflexivity. Qed.

Example superscript_digit_matches : select_cas (PList [PStr (String "178" "")]) = Ok (String "178" "").
Proof. reflexivity. Qed.

(** The call always comes back with a string, and prints nothing itself. *)
Lemma get_compound_info_total net compound_name w :
  exists s w',
    get_compound_info net compound_name w = (Ok s, w') /\ stdout w' = stdout w.
Proof.
  rewrite get_compound_info_run, body_run.
  destruct (resolve_cid net compound_name) as [cid|]; [|now eexists _, _].
  destruct (resolve_cas net cid); [|now eexists _, _].
  destruct (net (iupac_url cid)); [|now eexists _, _].
  destruct (net (smiles_url cid)); now eexists _, _.
Qed.

(** An exception on request 3 or 4 discards the registry number already
    selected. *)
Lemma exception_on_request_3_or_4 net compound_name cid cas e :
  resolve_cid net compound_name = Ok cid ->
  resolve_cas net cid = Ok cas ->
  net (iupac_url cid) = Raise e \/
  (exists r3, net (iupac_url cid) = Ok r3 /\ net (smiles_url cid) = Raise e) ->
  fst (run (get_compound_info net compound_name)) = Ok fallback /\
  logged (snd (run (get_compound_info net compound_name))) =
  [error_record compound_name e].
Proof.
  intros H1 H2 H. unfold run. rewrite get_compound_info_run, body_run, H1, H2.
  destruct H as [H | (r3 & H3 & H4)].
  - rewrite H. split; reflexivity.
  - rewrite H3, H4. split; reflexivity.
Qed.

(** ** The claims *)



(** C2 (the code departs from it). Endpoints 1 and 2 answer well and endpoint
    3 answers 404: no exception is raised, nothing is logged, and the call
    returns the registry number, the body of the 404 answer and the SMILES
    instead of the fallback string. *)
Theorem C2_status_404_on_iupac_is_not_a_failure :
  status_code r_404 = 404 /\
  run (get_compound_info iupac_404_net "ethanol") =
  (Ok ("64-17-5" ++ TABs ++ "Status: 404" ++ TABs ++ "CCO"),
   {| sent := [GET (cid_url "ethanol"); GET (synonyms_url (PInt 702));
               GET (iupac_url (PInt 702)); GET (smiles_url (PInt 702))];
      logged := [];
      stdout := "" |}) /\
  fst (run (get_compound_info iupac_404_net "ethanol")) <> Ok fallback.
Proof.
  split; [reflexivity|]. split; [vm_compute; reflexivity|].
  vm_compute. discriminate.
Qed.


Lemma raise_for_status_passes r :
  ~ (400 <= status_code r < 600) -> raise_for_status r = Ok tt.
Proof.
  intros H. unfold raise_for_status.
  destruct (Z.leb_spec 400 (status_code r)); [|reflexivity].
  destruct (Z.ltb_spec (status_code r) 600); [lia | reflexivity].
Qed.

Lemma raise_for_status_raises r :
  400 <= status_code r < 600 ->
  raise_for_status r = Raise (RequestException (HTTPError (status_code r))).
Proof.
  intros H. unfold raise_for_status.
  destruct (Z.leb_spec 400 (status_code r)); [|lia].
  destruct (Z.ltb_spec (status_code r) 600); [reflexivity | lia].
Qed.

Lemma no_first_identifier_raises data e :
  no_first_identifier data e -> first_cid data = Raise e.
Proof.
  unfold first_cid, getitem_key.
  destruct 1 as [data H | d H | d v H Hv | d l H H' | d l H H' | d l H H'
                | d l o H H' | d l v H H' Hv].
  - destruct data; try reflexivity. now elim (H items).
  - now rewrite H.
  - rewrite H. destruct v; try reflexivity. now elim (Hv items).
  - now rewrite H, H'.
  - now rewrite H, H'.
  - now rewrite H, H'.
  - now rewrite H, H'.
  - rewrite H, H'.
    destruct Hv as [-> | [[b ->] | [[z ->] | [r ->]]]]; reflexivity.
Qed.

Lemma first_cid_raises_shape data e :
  first_cid data = Raise e -> no_first_identifier data e.
Proof.
  unfold first_cid, getitem_key.
  destruct data as [| | | | |?|d];
    try (intros [= <-]; apply nfi_not_an_object; discriminate).
  destruct (lookup "IdentifierList" d) as [v|] eqn:E1;
    [|intros [= <-]; now apply nfi_no_IdentifierList].
  destruct v as [| | | | |?|l];
    try (intros [= <-]; eapply nfi_IdentifierList_not_an_object;
         [exact E1 | discriminate]).
  destruct (lookup "CID" l) as [v|] eqn:E2;
    [|intros [= <-]; now apply (nfi_no_CID d l)].
  destruct v as [|b|z|r|s|items|o]; cbn.
  - intros [= <-]. apply (nfi_CID_scalar d l PNone); auto.
  - intros [= <-]. apply (nfi_CID_scalar d l (PBool b)); eauto.
  - intros [= <-]. apply (nfi_CID_scalar d l (PInt z)); eauto.
  - intros [= <-]. apply (nfi_CID_scalar d l (PFloat r)); eauto 6.
  - destruct s; [|discriminate]. intros [= <-]. now apply (nfi_CID_empty_string d l).
  - destruct items; [|discriminate]. intros [= <-]. now apply (nfi_CID_empty_list d l).
  - intros [= <-]. now apply (nfi_CID_object d l o).
Qed.

Lemma endpoint1_failure_resolve net compound_name e :
  endpoint1_failure net compound_name e <-> resolve_cid net compound_name = Raise e.
Proof.
  unfold resolve_cid, cid_url. split.
  - destruct 1 as [e H | r H Hs | r e H Hs Hj | r data e H Hs Hj Hd]; rewrite H.
    + reflexivity.
    + now rewrite (raise_for_status_raises _ Hs).
    + now rewrite (raise_for_status_passes _ Hs), Hj.
    + rewrite (raise_for_status_passes _ Hs), Hj. now apply no_first_identifier_raises.
  - destruct (net (base_url ++ "/compound/name/" ++ compound_name ++ "/cids/JSON"))
      as [r|e0] eqn:H; [|intros [= <-]; now apply e1_request_raises].
    destruct (Z_le_dec 400 (status_code r)) as [Hlo|Hlo].
    + destruct (Z_lt_dec (status_code r) 600) as [Hhi|Hhi].
      * rewrite raise_for_status_raises by lia.
        intros [= <-]. apply e1_error_status; [exact H | lia].
      * rewrite raise_for_status_passes by lia.
        destruct (json r) as [data|e1] eqn:Hj.
        -- intros Hc. apply (e1_no_first_identifier _ _ r data); auto; try lia.
           now apply first_cid_raises_shape.
        -- intros [= <-]. apply (e1_body_not_json _ _ r); auto. lia.
    + rewrite raise_for_status_passes by lia.
      destruct (json r) as [data|e1] eqn:Hj.
      * intros Hc. apply (e1_no_first_identifier _ _ r data); auto; try lia.
        now apply first_cid_raises_shape.
      * intros [= <-]. apply (e1_body_not_json _ _ r); auto. lia.
Qed.

(** C4 as stated fails: endpoint 1 answers 200 with a string under ['CID'],
    which is no identifier list; the call does not stop there but takes the
    first character of the string as the identifier, sends the three other
    requests for it and returns their values. *)
Lemma C4_counterexample :
  string_cid_net (base_url ++ "/compound/name/" ++ "ethanol" ++ "/cids/JSON") =
  Ok {| status_code := 200; text := "{}";
        json := Ok (PDict [("IdentifierList", PDict [("CID", PStr "702")])]) |} /\
  run (get_compound_info string_cid_net "ethanol") =
  (Ok ("64-17-5" ++ TABs ++ "ethanol" ++ TABs ++ "CCO"),
   {| sent := [{| req_url := base_url ++ "/compound/name/ethanol/cids/JSON";
                  req_timeout := 10 |};
               {| req_url := base_url ++ "/compound/cid/7/synonyms/JSON";
                  req_timeout := 10 |};
               {| req_url := base_url ++ "/compound/cid/7/property/IUPACName/TXT";
                  req_timeout := 10 |};
               {| req_url := base_url ++ "/compound/cid/7/property/IsomericSMILES/TXT";
                  req_timeout := 10 |}];
      logged := [];
      stdout := "" |}) /\
  fst (run (get_compound_info string_cid_net "ethanol")) <> Ok fallback.
Proof.
  split; [reflexivity|]. split; [vm_compute; reflexivity|].
  vm_compute. discriminate.
Qed.

(** C4, amended. When endpoint 1 answers with an identifier list, the
    requests after the first one are built from its first entry.  When the
    first request raises, is answered with a 4xx or 5xx status, has a body
    that is not JSON, or has a JSON body without a first identifier (the body
    or its ['IdentifierList'] is no object, a key is missing, or ['CID'] is
    an empty list, an empty string, an object, null, a boolean or a number),
    the call logs that failure and returns the fallback string having sent
    the first request only; and these are the only cases in which the call
    stops after the first request. *)
Theorem C4_first_entry_or_abort_after_one_request :
  forall (net : remote) (compound_name : string),
    (forall r d l cid others,
        net (base_url ++ "/compound/name/" ++ compound_name ++ "/cids/JSON") = Ok r ->
        ~ (400 <= status_code r < 600) ->
        json r = Ok (PDict d) ->
        lookup "IdentifierList" d = Some (PDict l) ->
        lookup "CID" l = Some (PList (cid :: others)) ->
        let first := {| req_url := base_url ++ "/compound/name/" ++ compound_name
                                   ++ "/cids/JSON";
                        req_timeout := 10 |} in
        let second := {| req_url := base_url ++ "/compound/cid/" ++ py_str cid
                                    ++ "/synonyms/JSON";
                         req_timeout := 10 |} in
        let third := {| req_url := base_url ++ "/compound/cid/" ++ py_str cid
                                   ++ "/property/IUPACName/TXT";
                        req_timeout := 10 |} in
        let fourth := {| req_url := base_url ++ "/compound/cid/" ++ py_str cid
                                    ++ "/property/IsomericSMILES/TXT";
                         req_timeout := 10 |} in
        sent (snd (run (get_compound_info net compound_name))) = [first; second] \/
        sent (snd (run (get_compound_info net compound_name))) = [first; second; third] \/
        sent (snd (run (get_compound_info net compound_name))) =
        [first; second; third; fourth]) /\
    (forall e,
        endpoint1_failure net compound_name e ->
        run (get_compound_info net compound_name) =
        (Ok fallback,
         {| sent := [{| req_url := base_url ++ "/compound/name/" ++ compound_name
                                   ++ "/cids/JSON";
                        req_timeout := 10 |}];
            logged := [error_record compound_name e];
            stdout := "" |})) /\
    (sent (snd (run (get_compound_info net compound_name))) =
     [{| req_url := base_url ++ "/compound/name/" ++ compound_name ++ "/cids/JSON";
         req_timeout := 10 |}] ->
     exists e, endpoint1_failure net compound_name e).
Proof.
  intros net compound_name. split; [|split].
  - intros r d l cid others H1 H2 H3 H4 H5 first second third fourth.
    assert (Hcid : resolve_cid net compound_name = Ok cid).
    { unfold resolve_cid, cid_url, first_cid.
      rewrite H1, (raise_for_status_passes _ H2), H3. cbn. rewrite H4. cbn. now rewrite H5. }
    unfold run. rewrite get_compound_info_run, body_run, Hcid.
    destruct (resolve_cas net cid); [|left; reflexivity].
    destruct (net (iupac_url cid)); [|right; left; reflexivity].
    destruct (net (smiles_url cid)); right; right; reflexivity.
  - intros e H. apply endpoint1_failure_resolve in H.
    unfold run. now rewrite get_compound_info_run, body_run, H.
  - unfold run. rewrite get_compound_info_run, body_run.
    destruct (resolve_cid net compound_name) as [cid|e] eqn:Hcid.
    + destruct (resolve_cas net cid); [|discriminate].
      destruct (net (iupac_url cid)); [|discriminate].
      destruct (net (smiles_url cid)); discriminate.
    + intros _. exists e. now apply endpoint1_failure_resolve.
Qed.

Lemma C4_witness :
  (sent (snd (run (get_compound_info ethanol_net "ethanol"))) =
   [GET (cid_url "ethanol"); GET (synonyms_url (PInt 702))] \/
   sent (snd (run (get_compound_info ethanol_net "ethanol"))) =
   [GET (cid_url "ethanol"); GET (synonyms_url (PInt 702)); GET (iupac_url (PInt 702))] \/
   sent (snd (run (get_compound_info ethanol_net "ethanol"))) =
   [GET (cid_url "ethanol"); GET (synonyms_url (PInt 702));
    GET (iupac_url (PInt 702)); GET (smiles_url (PInt 702))]) /\
  run (get_compound_info fault_net "ethanol") =
  (Ok fallback,
   {| sent := [GET (cid_url "ethanol")];
      logged := [Unexpected_error_for "ethanol" KeyError];
      stdout := "" |}) /\
  (exists e, endpoint1_failure down_net "ethanol" e).
Proof.
  split; [|split].
  - refine (proj1 (C4_first_entry_or_abort_after_one_request ethanol_net "ethanol")
              {| status_code := 200; text := "{}"; json := Ok cids_702 |}
              [("IdentifierList", PDict [("CID", PList [PInt 702])])]
              [("CID", PList [PInt 702])] (PInt 702) [] _ _ _ _ _).
    + reflexivity.
    + cbn. lia.
    + reflexivity.
    + reflexivity.
    + reflexivity.
  - apply (proj1 (proj2 (C4_first_entry_or_abort_after_one_request fault_net "ethanol"))
             KeyError).
    apply (e1_no_first_identifier fault_net "ethanol"
             {| status_code := 200; text := "{}"; json := Ok (PDict [("Fault", PDict [])]) |}
             (PDict [("Fault", PDict [])])).
    + reflexivity.
    + cbn. lia.
    + reflexivity.
    + apply nfi_no_IdentifierList. reflexivity.
  - apply (proj2 (proj2 (C4_first_entry_or_abort_after_one_request down_net "ethanol"))).
    reflexivity.
Defined.



(** C6 as stated fails: every endpoint answers 200 and the name resolves,
    but endpoint 3 answers with an empty line, and the line printed has an
    empty second field; or endpoint 3 answers with a body that keeps a tab and
    a line feed inside once trimmed, and what is printed is not one line. *)
Lemma C6_counterexample :
  (resolve_cid empty_iupac_net "ethanol" = Ok (PInt 702) /\
   resolve_cas empty_iupac_net (PInt 702) = Ok "64-17-5" /\
   (exists r3 r4,
       empty_iupac_net (iupac_url (PInt 702)) = Ok r3 /\ status_code r3 = 200 /\
       empty_iupac_net (smiles_url (PInt 702)) = Ok r4 /\ status_code r4 = 200) /\
   stdout (snd (run (main empty_iupac_net ["get_compound_info2.py"; "ethanol"]))) =
   ("64-17-5" ++ TABs ++ "" ++ TABs ++ "CCO") ++ LFs /\
   ~ three_fields_line
       (stdout (snd (run (main empty_iupac_net ["get_compound_info2.py"; "ethanol"]))))) /\
  (resolve_cid two_records_net "ethanol" = Ok (PInt 702) /\
   resolve_cas two_records_net (PInt 702) = Ok "64-17-5" /\
   (exists r3 r4,
       two_records_net (iupac_url (PInt 702)) = Ok r3 /\ status_code r3 = 200 /\
       two_records_net (smiles_url (PInt 702)) = Ok r4 /\ status_code r4 = 200) /\
   ~ three_fields_line
       (stdout (snd (run (main two_records_net ["get_compound_info2.py"; "ethanol"]))))).
Proof.
  split.
  - split; [reflexivity|]. split; [reflexivity|]. split; [|split; [reflexivity|]].
    + do 2 eexists. repeat split.
    + intros (line & a & b & c & Hout & _ & Hsplit & _ & Hb & _).
      change (stdout _) with (("64-17-5" ++ TABs ++ "" ++ TABs ++ "CCO") ++ LFs) in Hout.
      apply append_LFs_inj in Hout. subst line.
      vm_compute in Hsplit. injection Hsplit as _ Hb' _. now apply Hb.
  - split; [reflexivity|]. split; [reflexivity|]. split.
    + do 2 eexists. repeat split.
    + intros (line & a & b & c & Hout & Hlf & _).
      change (stdout _)
        with (("64-17-5" ++ TABs ++ ("ethanol" ++ TABs ++ "EtOH" ++ LFs ++ "alcohol")
                 ++ TABs ++ "CCO") ++ LFs) in Hout.
      apply append_LFs_inj in Hout. subst line.
      vm_compute in Hlf. discriminate.
Qed.

(** C6, amended. With an argument on the command line the program prints the
    returned string as one line and exits with status 0; and when endpoints 1
    and 2 go through and endpoints 3 and 4 answer with bodies that, once
    trimmed, are non-empty and hold no tab and no line feed, that line has
    exactly the three non-empty fields registry number, standard name,
    structure notation. *)
Theorem C6_one_line_of_three_fields :
  forall (net : remote) (argv : list string),
    (2 <= length argv)%nat ->
    exit_status (fst (run (main net argv))) = 0 /\
    (exists line,
        fst (run (get_compound_info net (nth 1 argv ""))) = Ok line /\
        stdout (snd (run (main net argv))) = line ++ LFs) /\
    (forall cid cas r3 r4,
        resolve_cid net (nth 1 argv "") = Ok cid ->
        resolve_cas net cid = Ok cas ->
        net (iupac_url cid) = Ok r3 ->
        net (smiles_url cid) = Ok r4 ->
        strip (text r3) <> "" ->
        contains TAB (strip (text r3)) = false ->
        contains LF (strip (text r3)) = false ->
        strip (text r4) <> "" ->
        contains TAB (strip (text r4)) = false ->
        contains LF (strip (text r4)) = false ->
        let line := cas ++ TABs ++ strip (text r3) ++ TABs ++ strip (text r4) in
        stdout (snd (run (main net argv))) = line ++ LFs /\
        contains LF line = false /\
        split TAB line = [cas; strip (text r3); strip (text r4)] /\
        cas <> "" /\
        three_fields_line (stdout (snd (run (main net argv))))).
Proof.
  intros net argv Hargv. rewrite (main_run _ _ Hargv).
  destruct (get_compound_info_total net (nth 1 argv "") start) as (s & w' & Hs & Hw).
  split; [|split].
  - unfold run. now rewrite Hs.
  - exists s. unfold run. rewrite Hs. cbn [fst snd stdout].
    split; [reflexivity|]. now rewrite Hw.
  - intros cid cas r3 r4 H1 H2 H3 H4 Hi Hit Hil Hs4 Hst Hsl line.
    rewrite (success_run _ _ _ _ _ _ H1 H2 H3 H4). cbn [stdout append].
    destruct (cas_plain cas TAB (resolve_cas_result _ _ _ H2)) as [Hct Hne];
      [reflexivity | discriminate | reflexivity |].
    destruct (cas_plain cas LF (resolve_cas_result _ _ _ H2)) as [Hcl _];
      [reflexivity | discriminate | reflexivity |].
    assert (Hline : contains LF line = false).
    { unfold line. rewrite !contains_app, Hcl, Hil, Hsl. reflexivity. }
    assert (Hsplit : split TAB line = [cas; strip (text r3); strip (text r4)]).
    { unfold line, TABs. now apply split_three. }
    repeat split; auto.
    exists line, cas, (strip (text r3)), (strip (text r4)). repeat split; auto.
Qed.

Lemma C6_witness :
  let line := "64-17-5" ++ TABs ++ "ethanol" ++ TABs ++ "CCO" in
  stdout (snd (run (main ethanol_net ["get_compound_info2.py"; "ethanol"]))) = line ++ LFs /\
  contains LF line = false /\
  split TAB line = ["64-17-5"; "ethanol"; "CCO"] /\
  "64-17-5" <> "" /\
  three_fields_line
    (stdout (snd (run (main ethanol_net ["get_compound_info2.py"; "ethanol"])))).
Proof.
  refine (proj2 (proj2 (C6_one_line_of_three_fields ethanol_net
                          ["get_compound_info2.py"; "ethanol"] _))
            (PInt 702) "64-17-5"
            {| status_code := 200; text := "ethanol" ++ LFs; json := no_json |}
            {| status_code := 200; text := "CCO" ++ LFs; json := no_json |}
            _ _ _ _ _ _ _ _ _ _);
    try reflexivity; try discriminate.
Defined.

(** C7. Without a command-line argument the program prints the usage
    message, ends with status 1 and sends no request. *)
Theorem C7_usage_without_argument :
  forall (net : remote) (argv : list string),
    (length argv < 2)%nat ->
    run (main net argv) =
    (Ok 1, {| sent := []; logged := []; stdout := usage ++ LFs |}) /\
    exit_status (fst (run (main net argv))) = 1.
Proof.
  intros net argv H. unfold main.
  destruct (Z.ltb_spec (Z.of_nat (length argv)) 2) as [_|Hge]; [|lia].
  split; reflexivity.
Qed.

Lemma C7_witness :
  run (main ethanol_net ["get_compound_info2.py"]) =
  (Ok 1, {| sent := []; logged := []; stdout := usage ++ LFs |}) /\
  exit_status (fst (run (main ethanol_net ["get_compound_info2.py"]))) = 1.
Proof.
  apply (C7_usage_without_argument ethanol_net ["get_compound_info2.py"]).
  cbn. lia.
Defined.

(** C8. The first request of every call goes to the base URL followed by
    [/compound/name/], the compound name as given, and [/cids/JSON], with a
    timeout of 10. *)
Theorem C8_first_request_url :
  forall (net : remote) (compound_name : string),
    exists rest,
      sent (snd (run (get_compound_info net compound_name))) =
      {| req_url := base_url ++ "/compound/name/" ++ compound_name ++ "/cids/JSON";
         req_timeout := 10 |} :: rest.
Proof.
  intros net compound_name. unfold run.
  rewrite get_compound_info_run, body_run.
  destruct (resolve_cid net compound_name) as [cid|]; [|eexists; reflexivity].
  destruct (resolve_cas net cid); [|eexists; reflexivity].
  destruct (net (iupac_url cid)); [|eexists; reflexivity].
  destruct (net (smiles_url cid)); eexists; reflexivity.
Qed.

(** C9. When the first tab-delimited field of the returned string is not
    ["Not found"], it is made of digits and hyphens and holds a digit; and a
    synonym made of hyphens only, the empty one included, never matches. *)
Theorem C9_registry_field_shape :
  forall (net : remote) (compound_name : string),
    (forall out,
        fst (run (get_compound_info net compound_name)) = Ok out ->
        hd "" (split TAB out) <> Not_found ->
        digits_and_hyphens (hd "" (split TAB out))) /\
    (forall s,
        Forall (fun c => c = HYPHEN) (list_ascii_of_string s) ->
        isdigit (replace HYPHEN "" s) = false).
Proof.
  intros net compound_name. split.
  - intros out. unfold run. rewrite get_compound_info_run, body_run.
    assert (Hfb : forall w, fst (Ok fallback, w : world) = Ok out ->
                       hd "" (split TAB out) <> Not_found ->
                       digits_and_hyphens (hd "" (split TAB out))).
    { intros w [= <-] H. now elim H. }
    destruct (resolve_cid net compound_name) as [cid|]; [|apply Hfb].
    destruct (resolve_cas net cid) as [cas|] eqn:Hcas; [|apply Hfb].
    destruct (net (iupac_url cid)); [|apply Hfb].
    destruct (net (smiles_url cid)); [|apply Hfb].
    cbn [fst]. intros [= <-].
    pose proof (resolve_cas_result _ _ _ Hcas) as Hshape.
    destruct (cas_plain cas TAB Hshape) as [Hct _];
      [reflexivity | discriminate | reflexivity |].
    clear Hfb. rewrite (split_field _ _ _ Hct). cbn [hd].
    destruct Hshape as [->|H]; [intros H; now elim H|].
    intros _. now apply digits_once_hyphens_removed_shape.
  - intros s Hs. apply no_match_spec. intros [Hne _]. apply Hne. clear Hne.
    induction Hs as [|c r -> _ IH]; [reflexivity|]. exact IH.
Qed.

Lemma C9_witness :
  digits_and_hyphens
    (hd "" (split TAB ("64-17-5" ++ TABs ++ "ethanol" ++ TABs ++ "CCO"))) /\
  isdigit (replace HYPHEN "" "---") = false.
Proof.
  split.
  - apply (proj1 (C9_registry_field_shape ethanol_net "ethanol")
             ("64-17-5" ++ TABs ++ "ethanol" ++ TABs ++ "CCO")).
    + reflexivity.
    + discriminate.
  - apply (proj2 (C9_registry_field_shape ethanol_net "ethanol") "---").
    repeat constructor.
Defined.



(** ** Further properties of the code *)

(** *** Helper lemmas *)

Lemma body_run_start net compound_name :
  run (get_compound_info net compound_name) =
  match resolve_cid net compound_name with
  | Raise e =>
      (Ok fallback,
       {| sent := [GET (cid_url compound_name)];
          logged := [error_record compound_name e]; stdout := "" |})
  | Ok cid =>
      match resolve_cas net cid with
      | Raise e =>
          (Ok fallback,
           {| sent := [GET (cid_url compound_name); GET (synonyms_url cid)];
              logged := [error_record compound_name e]; stdout := "" |})
      | Ok cas =>
          match net (iupac_url cid) with
          | Raise e =>
              (Ok fallback,
               {| sent := [GET (cid_url compound_name); GET (synonyms_url cid);
                           GET (iupac_url cid)];
                  logged := [error_record compound_name e]; stdout := "" |})
          | Ok r3 =>
              match net (smiles_url cid) with
              | Raise e =>
                  (Ok fallback,
                   {| sent := [GET (cid_url compound_name); GET (synonyms_url cid);
                               GET (iupac_url cid); GET (smiles_url cid)];
                      logged := [error_record compound_name e]; stdout := "" |})
              | Ok r4 =>
                  (Ok (cas ++ TABs ++ strip (text r3) ++ TABs ++ strip (text r4)),
                   {| sent := [GET (cid_url compound_name); GET (synonyms_url cid);
                               GET (iupac_url cid); GET (smiles_url cid)];
                      logged := []; stdout := "" |})
              end
          end
      end
  end.
Proof.
  unfold run. rewrite get_compound_info_run, body_run.
  destruct (resolve_cid net compound_name) as [cid|]; [|reflexivity].
  destruct (resolve_cas net cid); [|reflexivity].
  destruct (net (iupac_url cid)); [|reflexivity].
  destruct (net (smiles_url cid)); reflexivity.
Qed.

Lemma body_start net compound_name :
  run (get_compound_info_body net compound_name) =
  match resolve_cid net compound_name with
  | Raise e => (Raise e, sending start [GET (cid_url compound_name)])
  | Ok cid =>
      match resolve_cas net cid with
      | Raise e =>
          (Raise e, sending start [GET (cid_url compound_name); GET (synonyms_url cid)])
      | Ok cas =>
          match net (iupac_url cid) with
          | Raise e =>
              (Raise e,
               sending start [GET (cid_url compound_name); GET (synonyms_url cid);
                              GET (iupac_url cid)])
          | Ok r3 =>
              match net (smiles_url cid) with
              | Raise e =>
                  (Raise e,
                   sending start [GET (cid_url compound_name); GET (synonyms_url cid);
                                  GET (iupac_url cid); GET (smiles_url cid)])
              | Ok r4 =>
                  (Ok (cas ++ TABs ++ strip (text r3) ++ TABs ++ strip (text r4)),
                   sending start [GET (cid_url compound_name); GET (synonyms_url cid);
                                  GET (iupac_url cid); GET (smiles_url cid)])
              end
          end
      end
  end.
Proof. unfold run. apply body_run. Qed.

(** X1. A call logs at most one record.  When it logs nothing, the [try]
    block completed, its value is the value of the call and four requests
    were sent; when it logs a record, the [try] block raised the exception
    recorded and the call returned the fallback string. *)
Theorem X1_at_most_one_log_record :
  forall (net : remote) (compound_name : string),
    (logged (snd (run (get_compound_info net compound_name))) = [] /\
     length (sent (snd (run (get_compound_info net compound_name)))) = 4%nat /\
     fst (run (get_compound_info_body net compound_name)) =
     fst (run (get_compound_info net compound_name)))
    \/ (exists e,
           logged (snd (run (get_compound_info net compound_name))) =
           [error_record compound_name e] /\
           fst (run (get_compound_info_body net compound_name)) = Raise e /\
           fst (run (get_compound_info net compound_name)) = Ok fallback).
Proof.
  intros net compound_name. rewrite body_run_start, body_start.
  destruct (resolve_cid net compound_name) as [cid|e]; [|right; now exists e].
  destruct (resolve_cas net cid) as [cas|e]; [|right; now exists e].
  destruct (net (iupac_url cid)) as [r3|e]; [|right; now exists e].
  destruct (net (smiles_url cid)) as [r4|e]; [|right; now exists e].
  left. repeat split.
Qed.

Lemma sent_prefix net compound_name :
  exists cid k,
    (1 <= k <= 4)%nat /\
    sent (snd (run (get_compound_info net compound_name))) =
    firstn k [GET (cid_url compound_name); GET (synonyms_url cid);
              GET (iupac_url cid); GET (smiles_url cid)].
Proof.
  rewrite body_run_start.
  destruct (resolve_cid net compound_name) as [cid|e].
  - exists cid.
    destruct (resolve_cas net cid) as [cas|e];
      [|exists 2%nat; split; [lia | reflexivity]].
    destruct (net (iupac_url cid)) as [r3|e];
      [|exists 3%nat; split; [lia | reflexivity]].
    destruct (net (smiles_url cid)) as [r4|e];
      exists 4%nat; (split; [lia | reflexivity]).
  - exists PNone, 1%nat. split; [lia | reflexivity].
Qed.

(** X2. The requests of a call are, in order, a non-empty prefix of: the
    name lookup, then the synonyms, the IUPAC name and the SMILES of one and
    the same identifier; each with a timeout of 10 seconds. *)
Theorem X2_requests_are_a_prefix_of_the_chain :
  forall (net : remote) (compound_name : string),
    exists cid k,
      (1 <= k <= 4)%nat /\
      sent (snd (run (get_compound_info net compound_name))) =
      firstn k [GET (cid_url compound_name); GET (synonyms_url cid);
                GET (iupac_url cid); GET (smiles_url cid)] /\
      Forall (fun r => req_timeout r = 10)
        (sent (snd (run (get_compound_info net compound_name)))).
Proof.
  intros net compound_name.
  destruct (sent_prefix net compound_name) as (cid & k & Hk & Hsent).
  exists cid, k. split; [exact Hk|]. split; [exact Hsent|].
  rewrite Hsent. clear Hsent Hk.
  destruct k as [|[|[|[|k]]]]; cbn [firstn]; rewrite ?firstn_nil; repeat constructor.
Qed.

(** X3. No URL is requested twice in a call. *)
Theorem X3_no_url_requested_twice :
  forall (net : remote) (compound_name : string),
    NoDup (map req_url (sent (snd (run (get_compound_info net compound_name))))).
Proof.
  intros net compound_name.
  destruct (sent_prefix net compound_name) as (cid & k & _ & ->).
  pose proof (urls_distinct compound_name cid) as H.
  assert (Hpre : forall (l : list string) n, NoDup l -> NoDup (firstn n l)).
  { intros l n Hl.
    rewrite <- (firstn_skipn n l) in Hl. now apply NoDup_app_remove_r in Hl. }
  rewrite <- firstn_map. apply Hpre. exact H.
Qed.

(** X4. A 4xx or 5xx answer to the first request ends the call there: the
    body is not parsed (valid or not), no further request is sent, the
    failure is logged as a request failure carrying the status, and the
    fallback string is returned. *)
Theorem X4_http_error_on_name_lookup :
  forall (net : remote) (compound_name : string) (r : response),
    net (cid_url compound_name) = Ok r ->
    400 <= status_code r < 600 ->
    run (get_compound_info net compound_name) =
    (Ok fallback,
     {| sent := [GET (cid_url compound_name)];
        logged := [Request_failed_for compound_name
                     (RequestException (HTTPError (status_code r)))];
        stdout := "" |}).
Proof.
  intros net compound_name r Hr Hs.
  assert (H : resolve_cid net compound_name =
              Raise (RequestException (HTTPError (status_code r)))).
  { unfold resolve_cid, raise_for_status. rewrite Hr.
    destruct (Z.leb_spec 400 (status_code r)); [|lia].
    destruct (Z.ltb_spec (status_code r) 600); [|lia]. reflexivity. }
  now rewrite body_run_start, H.
Qed.

Lemma X4_witness :
  run (get_compound_info
         (ethanol_service
            (Ok {| status_code := 503; text := "{}"; json := Ok cids_702 |})
            r_synonyms r_iupac r_smiles) "ethanol") =
  (Ok fallback,
   {| sent := [GET (cid_url "ethanol")];
      logged := [Request_failed_for "ethanol" (RequestException (HTTPError 503))];
      stdout := "" |}).
Proof.
  apply (X4_http_error_on_name_lookup
           (ethanol_service
              (Ok {| status_code := 503; text := "{}"; json := Ok cids_702 |})
              r_synonyms r_iupac r_smiles)
           "ethanol"
           {| status_code := 503; text := "{}"; json := Ok cids_702 |}).
  - reflexivity.
  - cbn. lia.
Defined.

(** X5. A 4xx or 5xx answer to the synonyms request, after the identifier
    was resolved, ends the call after two requests: the identifier is
    dropped, the failure is logged as a request failure carrying the status,
    and the fallback string is returned. *)
Theorem X5_http_error_on_synonyms :
  forall (net : remote) (compound_name : string) (cid : pyobj) (r2 : response),
    resolve_cid net compound_name = Ok cid ->
    net (synonyms_url cid) = Ok r2 ->
    400 <= status_code r2 < 600 ->
    run (get_compound_info net compound_name) =
    (Ok fallback,
     {| sent := [GET (cid_url compound_name); GET (synonyms_url cid)];
        logged := [Request_failed_for compound_name
                     (RequestException (HTTPError (status_code r2)))];
        stdout := "" |}).
Proof.
  intros net compound_name cid r2 Hcid Hr Hs.
  assert (H : resolve_cas net cid =
              Raise (RequestException (HTTPError (status_code r2)))).
  { unfold resolve_cas, raise_for_status. rewrite Hr.
    destruct (Z.leb_spec 400 (status_code r2)); [|lia].
    destruct (Z.ltb_spec (status_code r2) 600); [|lia]. reflexivity. }
  now rewrite body_run_start, Hcid, H.
Qed.

Lemma X5_witness :
  run (get_compound_info
         (ethanol_service r_cids
            (Ok {| status_code := 404; text := "";
                   json := Ok (synonyms_of ["64-17-5"]) |})
            r_iupac r_smiles) "ethanol") =
  (Ok fallback,
   {| sent := [GET (cid_url "ethanol"); GET (synonyms_url (PInt 702))];
      logged := [Request_failed_for "ethanol" (RequestException (HTTPError 404))];
      stdout := "" |}).
Proof.
  apply (X5_http_error_on_synonyms
           (ethanol_service r_cids
              (Ok {| status_code := 404; text := "";
                     json := Ok (synonyms_of ["64-17-5"]) |})
              r_iupac r_smiles)
           "ethanol" (PInt 702)
           {| status_code := 404; text := ""; json := Ok (synonyms_of ["64-17-5"]) |}).
  - reflexivity.
  - reflexivity.
  - cbn. lia.
Defined.

(** X6. [data['IdentifierList']['CID'][0]] yields a value exactly when
    [data] is a dict whose ['IdentifierList'] is a dict whose ['CID'] is a
    non-empty list (the value is its first element) or a non-empty string
    (the value is its first character). *)
Theorem X6_first_cid_succeeds_iff :
  forall (data cid : pyobj),
    first_cid data = Ok cid <->
    exists d l,
      data = PDict d /\
      lookup "IdentifierList" d = Some (PDict l) /\
      ((exists others, lookup "CID" l = Some (PList (cid :: others))) \/
       (exists c s, lookup "CID" l = Some (PStr (String c s)) /\
                    cid = PStr (String c ""))).
Proof.
  intros data cid. split.
  - unfold first_cid, getitem_key.
    destruct data as [| | | | |?|d]; try discriminate.
    destruct (lookup "IdentifierList" d) as [v|] eqn:E1; [|discriminate].
    destruct v as [| | | | |?|l]; try discriminate.
    destruct (lookup "CID" l) as [v|] eqn:E2; [|discriminate].
    intros H. exists d, l. split; [reflexivity|]. split; [exact E1|].
    destruct v as [| | | |s|items|?]; try discriminate.
    + destruct s as [|c s]; [discriminate|].
      injection H as <-. right. exists c, s. split; [exact E2 | reflexivity].
    + destruct items as [|x others]; [discriminate|].
      injection H as <-. left. exists others. exact E2.
  - intros (d & l & -> & H1 & [(others & H2) | (c & s & H2 & ->)]);
      unfold first_cid, getitem_key; now rewrite H1, H2.
Qed.

Lemma getitem_key_raises v k e :
  getitem_key v k = Raise e -> e = KeyError \/ e = TypeError.
Proof.
  unfold getitem_key. destruct v; try (intros [= <-]; now right).
  destruct (lookup k items); [discriminate|]. intros [= <-]. now left.
Qed.

Lemma getitem_0_raises v e :
  getitem_0 v = Raise e -> e = KeyError \/ e = IndexError \/ e = TypeError.
Proof.
  unfold getitem_0. destruct v as [| | | |s|items|?]; try (intros [= <-]; auto).
  - destruct s; [intros [= <-]; auto | discriminate].
  - destruct items; [intros [= <-]; auto | discriminate].
Qed.

Lemma first_cas_raises items e :
  first_cas items = Raise e -> e = AttributeError.
Proof.
  induction items as [|x rest IH]; cbn; [discriminate|].
  destruct x; try (now intros [= <-]).
  destruct (isdigit (replace HYPHEN "" s)); [discriminate | exact IH].
Qed.

Lemma select_cas_raises v e :
  select_cas v = Raise e -> e = TypeError \/ e = AttributeError.
Proof.
  unfold select_cas.
  destruct v; cbn; try (intros [= <-]; now left); intros H; right;
    now apply first_cas_raises in H.
Qed.

(** X7. The parsing steps raise only [KeyError], [IndexError], [TypeError]
    or [AttributeError], never a request exception: an answer of unexpected
    shape is logged under "Unexpected error", not under "Request failed". *)
Theorem X7_shape_errors_are_unexpected_errors :
  forall (v : pyobj) (e : exn) (compound_name : string),
    first_cid v = Raise e \/ synonym_field v = Raise e \/ select_cas v = Raise e ->
    (e = KeyError \/ e = IndexError \/ e = TypeError \/ e = AttributeError) /\
    error_record compound_name e = Unexpected_error_for compound_name e.
Proof.
  intros v e compound_name H.
  assert (He : e = KeyError \/ e = IndexError \/ e = TypeError \/ e = AttributeError).
  { destruct H as [H | [H | H]].
    - unfold first_cid in H.
      destruct (getitem_key v "IdentifierList") as [l|e1] eqn:E1.
      + destruct (getitem_key l "CID") as [c|e2] eqn:E2.
        * apply getitem_0_raises in H. intuition.
        * injection H as <-. apply getitem_key_raises in E2. intuition.
      + injection H as <-. apply getitem_key_raises in E1. intuition.
    - unfold synonym_field in H.
      destruct (getitem_key v "InformationList") as [l|e1] eqn:E1.
      + destruct (getitem_key l "Information") as [i|e2] eqn:E2.
        * destruct (getitem_0 i) as [r|e3] eqn:E3.
          -- apply getitem_key_raises in H. intuition.
          -- injection H as <-. apply getitem_0_raises in E3. intuition.
        * injection H as <-. apply getitem_key_raises in E2. intuition.
      + injection H as <-. apply getitem_key_raises in E1. intuition.
    - apply select_cas_raises in H. intuition. }
  split; [exact He|].
  destruct He as [-> | [-> | [-> | ->]]]; reflexivity.
Qed.

Lemma X7_witness :
  (IndexError = KeyError \/ IndexError = IndexError \/ IndexError = TypeError \/
   IndexError = AttributeError) /\
  error_record "ethanol" IndexError = Unexpected_error_for "ethanol" IndexError.
Proof.
  apply (X7_shape_errors_are_unexpected_errors
           (PDict [("IdentifierList", PDict [("CID", PList [])])]) IndexError "ethanol").
  left. reflexivity.
Defined.

(** X8. When the synonyms answer parses as JSON but lacks
    ['InformationList']['Information'][0]['Synonym'], the call ends after two
    requests with the fallback string and one "Unexpected error" record. *)
Theorem X8_synonyms_of_unexpected_shape :
  forall (net : remote) (compound_name : string) cid r2 body e,
    resolve_cid net compound_name = Ok cid ->
    net (synonyms_url cid) = Ok r2 ->
    raise_for_status r2 = Ok tt ->
    json r2 = Ok body ->
    synonym_field body = Raise e ->
    run (get_compound_info net compound_name) =
    (Ok fallback,
     {| sent := [GET (cid_url compound_name); GET (synonyms_url cid)];
        logged := [Unexpected_error_for compound_name e];
        stdout := "" |}).
Proof.
  intros net compound_name cid r2 body e H1 H2 H3 H4 H5.
  assert (H : resolve_cas net cid = Raise e).
  { unfold resolve_cas. now rewrite H2, H3, H4, H5. }
  rewrite body_run_start, H1, H.
  assert (He : e = KeyError \/ e = IndexError \/ e = TypeError).
  { unfold synonym_field in H5.
    destruct (getitem_key body "InformationList") as [l|e1] eqn:E1.
    - destruct (getitem_key l "Information") as [i|e2] eqn:E2.
      + destruct (getitem_0 i) as [r|e3] eqn:E3.
        * apply getitem_key_raises in H5. intuition.
        * injection H5 as <-. apply getitem_0_raises in E3. intuition.
      + injection H5 as <-. apply getitem_key_raises in E2. intuition.
    - injection H5 as <-. apply getitem_key_raises in E1. intuition. }
  destruct He as [-> | [-> | ->]]; reflexivity.
Qed.

Lemma X8_witness :
  run (get_compound_info
         (ethanol_service r_cids
            (ok200 "{}" (Ok (PDict [("InformationList", PDict [("Information", PList [])])])))
            r_iupac r_smiles) "ethanol") =
  (Ok fallback,
   {| sent := [GET (cid_url "ethanol"); GET (synonyms_url (PInt 702))];
      logged := [Unexpected_error_for "ethanol" IndexError];
      stdout := "" |}).
Proof.
  apply (X8_synonyms_of_unexpected_shape
           (ethanol_service r_cids
              (ok200 "{}" (Ok (PDict [("InformationList", PDict [("Information", PList [])])])))
              r_iupac r_smiles)
           "ethanol" (PInt 702)
           {| status_code := 200; text := "{}";
              json := Ok (PDict [("InformationList", PDict [("Information", PList [])])]) |}
           (PDict [("InformationList", PDict [("Information", PList [])])])
           IndexError); reflexivity.
Defined.

(** X9. The selection stops at the first match: whatever follows it in the
    list, strings or not, is never looked at. *)
Theorem X9_selection_stops_at_first_match :
  forall (before : list string) (s : string) (after : list pyobj),
    Forall (fun t => ~ digits_once_hyphens_removed t) before ->
    digits_once_hyphens_removed s ->
    select_cas (PList (map PStr before ++ PStr s :: after)) = Ok s.
Proof.
  intros before s after Hb Hs. unfold select_cas. cbn [py_iter].
  induction Hb as [|t rest Ht _ IH]; cbn [map app first_cas].
  - apply matches_spec in Hs. now rewrite Hs.
  - apply no_match_spec in Ht. now rewrite Ht.
Qed.

Lemma X9_witness :
  select_cas (PList (map PStr ["ethanol"] ++ PStr "64-17-5" :: [PInt 64; PNone])) =
  Ok "64-17-5".
Proof.
  apply (X9_selection_stops_at_first_match ["ethanol"] "64-17-5" [PInt 64; PNone]).
  - repeat constructor. apply no_match_spec. reflexivity.
  - apply matches_spec. reflexivity.
Defined.

(** X10. An element that is not a string, met before any match, makes the
    selection raise [AttributeError], whatever follows it. *)
Theorem X10_non_string_before_match_raises :
  forall (before : list string) (x : pyobj) (after : list pyobj),
    Forall (fun t => ~ digits_once_hyphens_removed t) before ->
    (forall s, x <> PStr s) ->
    select_cas (PList (map PStr before ++ x :: after)) = Raise AttributeError.
Proof.
  intros before x after Hb Hx. unfold select_cas. cbn [py_iter].
  induction Hb as [|t rest Ht _ IH]; cbn [map app first_cas].
  - destruct x; try reflexivity. now elim (Hx s).
  - apply no_match_spec in Ht. now rewrite Ht.
Qed.

Lemma X10_witness :
  select_cas (PList (map PStr ["ethanol"] ++ PInt 64 :: [PStr "64-17-5"])) =
  Raise AttributeError.
Proof.
  apply (X10_non_string_before_match_raises ["ethanol"] (PInt 64) [PStr "64-17-5"]).
  - repeat constructor. apply no_match_spec. reflexivity.
  - discriminate.
Defined.

Lemma digits_Forall_filter (l : list ascii) :
  Forall (fun c => isdigit_char c = true \/ c = HYPHEN) l ->
  Forall (fun c => isdigit_char c = true) (filter not_hyphen l).
Proof.
  induction 1 as [|c r Hc _ IH]; cbn [filter]; [constructor|].
  destruct (not_hyphen c) eqn:E; [|exact IH].
  constructor; [|exact IH].
  destruct Hc as [Hc | ->]; [exact Hc | discriminate].
Qed.

Lemma digit_Exists_filter (l : list ascii) :
  Exists (fun c => isdigit_char c = true) l -> filter not_hyphen l <> [].
Proof.
  induction 1 as [c r Hc | c r _ IH]; cbn [filter].
  - destruct (not_hyphen c) eqn:E; [discriminate|].
    apply not_hyphen_false in E. subst c. discriminate.
  - destruct (not_hyphen c); [discriminate | exact IH].
Qed.

(** X11. The test [s.replace('-', '').isdigit()] accepts exactly the strings
    made of digits and hyphens that hold at least one digit: number and
    position of the hyphens play no role. *)
Theorem X11_test_accepts_digits_and_hyphens :
  forall s : string,
    isdigit (replace HYPHEN "" s) = true <-> digits_and_hyphens s.
Proof.
  intros s. rewrite matches_spec. split.
  - apply digits_once_hyphens_removed_shape.
  - intros [H1 H2]. split; [now apply digit_Exists_filter | now apply digits_Forall_filter].
Qed.

Lemma lstrip_first s c :
  first_char (lstrip s) = Some c -> isspace_char c = false.
Proof.
  induction s as [|a r IH]; cbn [lstrip]; [discriminate|].
  destruct (isspace_char a) eqn:E; [exact IH|].
  cbn. now intros [= <-].
Qed.

Lemma rstrip_first s c :
  first_char (rstrip s) = Some c -> first_char s = Some c.
Proof.
  destruct s as [|a r]; cbn [rstrip]; [discriminate|].
  destruct (rstrip r); [destruct (isspace_char a); [discriminate|] |]; cbn; auto.
Qed.

Lemma rstrip_last s c :
  last_char (rstrip s) = Some c -> isspace_char c = false.
Proof.
  induction s as [|a r IH]; cbn [rstrip]; [discriminate|].
  destruct (rstrip r) as [|b r'] eqn:E.
  - destruct (isspace_char a) eqn:Ea; [discriminate|].
    cbn. now intros [= <-].
  - cbn [last_char]. exact IH.
Qed.

Lemma lstrip_fixed t :
  (forall c, first_char t = Some c -> isspace_char c = false) -> lstrip t = t.
Proof.
  destruct t as [|a r]; [reflexivity|].
  intros H. cbn [lstrip]. now rewrite (H a eq_refl).
Qed.

Lemma rstrip_fixed t :
  (forall c, last_char t = Some c -> isspace_char c = false) -> rstrip t = t.
Proof.
  induction t as [|a r IH]; [reflexivity|].
  intros H. cbn [rstrip]. destruct r as [|b r'].
  - cbn. now rewrite (H a eq_refl).
  - rewrite IH; [reflexivity|]. intros c Hc. apply H. exact Hc.
Qed.

(** X12. A trimmed body neither begins nor ends with a whitespace character
    (so no line end of the answer reaches the output), and trimming leaves a
    string with clean ends as it is (so it is idempotent and touches nothing
    inside). *)
Theorem X12_strip_cleans_both_ends_only :
  forall s : string,
    (forall c, first_char (strip s) = Some c -> isspace_char c = false) /\
    (forall c, last_char (strip s) = Some c -> isspace_char c = false) /\
    ((forall c, first_char s = Some c -> isspace_char c = false) ->
     (forall c, last_char s = Some c -> isspace_char c = false) ->
     strip s = s) /\
    strip (strip s) = strip s.
Proof.
  intros s.
  assert (H1 : forall c, first_char (strip s) = Some c -> isspace_char c = false).
  { intros c H. apply rstrip_first in H. now apply lstrip_first in H. }
  assert (H2 : forall c, last_char (strip s) = Some c -> isspace_char c = false).
  { intros c H. now apply rstrip_last in H. }
  assert (H3 : forall t,
             (forall c, first_char t = Some c -> isspace_char c = false) ->
             (forall c, last_char t = Some c -> isspace_char c = false) ->
             strip t = t).
  { intros t Hf Hl. unfold strip. rewrite (lstrip_fixed _ Hf). now apply rstrip_fixed. }
  repeat split; auto.
Qed.

Lemma X12_witness :
  isspace_char "a" = false /\ isspace_char "b" = false /\ strip "a b" = "a b".
Proof.
  pose proof (X12_strip_cleans_both_ends_only (String TAB " a b " ++ LFs)) as (H1 & H2 & _).
  pose proof (X12_strip_cleans_both_ends_only "a b") as (_ & _ & H3 & _).
  split; [apply H1; reflexivity|]. split; [apply H2; reflexivity|].
  apply H3; intros c [= <-]; reflexivity.
Defined.

Lemma length_split sep s :
  length (split sep s) = S (count_char sep s).
Proof.
  induction s as [|c r IH]; cbn [split count_char]; [reflexivity|].
  destruct (Ascii.eqb c sep); [cbn; now rewrite IH|].
  destruct (split sep r); [discriminate | exact IH].
Qed.

Lemma count_char_app c a b :
  count_char c (a ++ b) = (count_char c a + count_char c b)%nat.
Proof.
  induction a as [|d a IH]; cbn [append count_char]; [reflexivity|].
  destruct (Ascii.eqb d c); cbn; now rewrite IH.
Qed.

(** X13. The string a call returns always holds at least two tabs, that is
    at least three tab-delimited fields. *)
Theorem X13_at_least_three_fields :
  forall (net : remote) (compound_name : string),
    exists out,
      fst (run (get_compound_info net compound_name)) = Ok out /\
      (2 <= count_char TAB out)%nat /\
      (3 <= length (split TAB out))%nat.
Proof.
  intros net compound_name.
  assert (Hfb : (2 <= count_char TAB fallback)%nat /\
                (3 <= length (split TAB fallback))%nat) by (cbn; lia).
  rewrite body_run_start.
  destruct (resolve_cid net compound_name) as [cid|]; [|now exists fallback].
  destruct (resolve_cas net cid) as [cas|]; [|now exists fallback].
  destruct (net (iupac_url cid)) as [r3|]; [|now exists fallback].
  destruct (net (smiles_url cid)) as [r4|]; [|now exists fallback].
  eexists. split; [reflexivity|].
  rewrite length_split, !count_char_app. cbn [count_char TABs Ascii.eqb].
  change (Ascii.eqb TAB TAB) with true. cbn. lia.
Qed.

Lemma sent_not_empty net compound_name :
  sent (snd (run (get_compound_info net compound_name))) <> [].
Proof.
  destruct (sent_prefix net compound_name) as (cid & k & Hk & ->).
  destruct k; [lia | discriminate].
Qed.

(** X14. The program ends with status 1 exactly when no argument is given,
    and it sends no request exactly in that case: once an argument is there,
    at least one request goes out and the status is 0 whatever happens. *)
Theorem X14_status_and_requests_by_argument_count :
  forall (net : remote) (argv : list string),
    (exit_status (fst (run (main net argv))) = 1 <-> (length argv < 2)%nat) /\
    (exit_status (fst (run (main net argv))) = 0 <-> (2 <= length argv)%nat) /\
    (sent (snd (run (main net argv))) = [] <-> (length argv < 2)%nat).
Proof.
  intros net argv.
  destruct (Nat.lt_ge_cases (length argv) 2) as [Hlt | Hge].
  - assert (H : run (main net argv) =
                (Ok 1, {| sent := []; logged := []; stdout := usage ++ LFs |})).
    { unfold main. destruct (Z.ltb_spec (Z.of_nat (length argv)) 2); [reflexivity | lia]. }
    rewrite H. cbn. repeat split; intros; try lia; try reflexivity; discriminate.
  - rewrite (main_run _ _ Hge).
    destruct (get_compound_info_total net (nth 1 argv "") start) as (s & w' & Hs & _).
    pose proof (sent_not_empty net (nth 1 argv "")) as Hne.
    unfold run in *. rewrite Hs in *. cbn in *.
    repeat split; intros; try lia; try reflexivity; try discriminate.
    now elim Hne.
Qed.

(** X15. On the first request the status code counts only through the 4xx
    and 5xx range: two services that answer it with the same body under two
    status codes outside that range, and agree on every other URL, give the
    same run. *)
Theorem X15_status_outside_4xx_5xx_is_ignored :
  forall (net net' : remote) (compound_name : string) (r r' : response),
    net (cid_url compound_name) = Ok r ->
    net' (cid_url compound_name) = Ok r' ->
    json r = json r' ->
    ~ (400 <= status_code r < 600) ->
    ~ (400 <= status_code r' < 600) ->
    (forall url, url <> cid_url compound_name -> net url = net' url) ->
    run (get_compound_info net compound_name) =
    run (get_compound_info net' compound_name).
Proof.
  intros net net' compound_name r r' Hr Hr' Hj Hs Hs' Hsame.
  assert (Hpass : forall x : response,
             ~ (400 <= status_code x < 600) -> raise_for_status x = Ok tt).
  { intros x Hx. unfold raise_for_status.
    destruct (Z.leb_spec 400 (status_code x)); [|reflexivity].
    destruct (Z.ltb_spec (status_code x) 600); [lia | reflexivity]. }
  assert (Hcid : resolve_cid net compound_name = resolve_cid net' compound_name).
  { unfold resolve_cid. now rewrite Hr, Hr', (Hpass _ Hs), (Hpass _ Hs'), Hj. }
  rewrite !body_run_start, <- Hcid.
  destruct (resolve_cid net compound_name) as [cid|]; [|reflexivity].
  pose proof (urls_distinct compound_name cid) as Hd.
  inversion Hd as [|? ? Hnot _]; subst. cbn [In] in Hnot.
  assert (H2 : net (synonyms_url cid) = net' (synonyms_url cid)).
  { apply Hsame. intros E. apply Hnot. auto. }
  assert (H3 : net (iupac_url cid) = net' (iupac_url cid)).
  { apply Hsame. intros E. apply Hnot. auto. }
  assert (H4 : net (smiles_url cid) = net' (smiles_url cid)).
  { apply Hsame. intros E. apply Hnot. auto. }
  unfold resolve_cas. now rewrite <- H2, <- H3, <- H4.
Qed.

Lemma X15_witness :
  run (get_compound_info ethanol_net "ethanol") =
  run (get_compound_info
         (ethanol_service
            (Ok {| status_code := 300; text := "{}"; json := Ok cids_702 |})
            r_synonyms r_iupac r_smiles) "ethanol").
Proof.
  apply (X15_status_outside_4xx_5xx_is_ignored
           ethanol_net
           (ethanol_service
              (Ok {| status_code := 300; text := "{}"; json := Ok cids_702 |})
              r_synonyms r_iupac r_smiles)
           "ethanol"
           {| status_code := 200; text := "{}"; json := Ok cids_702 |}
           {| status_code := 300; text := "{}"; json := Ok cids_702 |}).
  - reflexivity.
  - reflexivity.
  - reflexivity.
  - cbn. lia.
  - cbn. lia.
  - intros url Hurl. unfold ethanol_net, ethanol_service.
    destruct (String.eqb_spec url (cid_url "ethanol")); [contradiction | reflexivity].
Defined.

(** X17. An exception on the last request, after the three others were
    answered, discards everything obtained so far: the call returns the
    fallback string after four requests and logs the exception. *)
Theorem X17_exception_on_smiles_discards_all :
  forall (net : remote) (compound_name : string) cid cas r3 e,
    resolve_cid net compound_name = Ok cid ->
    resolve_cas net cid = Ok cas ->
    net (iupac_url cid) = Ok r3 ->
    net (smiles_url cid) = Raise e ->
    run (get_compound_info net compound_name) =
    (Ok fallback,
     {| sent := [GET (cid_url compound_name); GET (synonyms_url cid);
                 GET (iupac_url cid); GET (smiles_url cid)];
        logged := [error_record compound_name e];
        stdout := "" |}).
Proof.
  intros net compound_name cid cas r3 e H1 H2 H3 H4.
  now rewrite body_run_start, H1, H2, H3, H4.
Qed.

Lemma X17_witness :
  run (get_compound_info
         (ethanol_service r_cids r_synonyms r_iupac (Raise (RequestException Timeout)))
         "ethanol") =
  (Ok fallback,
   {| sent := [GET (cid_url "ethanol"); GET (synonyms_url (PInt 702));
               GET (iupac_url (PInt 702)); GET (smiles_url (PInt 702))];
      logged := [error_record "ethanol" (RequestException Timeout)];
      stdout := "" |}).
Proof.
  apply (X17_exception_on_smiles_discards_all
           (ethanol_service r_cids r_synonyms r_iupac (Raise (RequestException Timeout)))
           "ethanol" (PInt 702) "64-17-5"
           {| status_code := 200; text := "ethanol" ++ LFs; json := no_json |}
           (RequestException Timeout)); reflexivity.
Defined.
